(** * Accuracy of operations involving floating point numbers

    A verification development for the notebook
    [code/2_MachinePrecision/jupyter/2_FloatingPointPrecision.ipynb].

    The notebook is embedded at two levels.

    - [Formulas]: the arithmetic expressions the cells evaluate, written once
      over an abstract number type ([Num]) and read in two structures: the
      real numbers (exact arithmetic) and IEEE-754 binary64 (what Python's
      [float] computes). [Inputs] holds the literals the cells assign and
      [Accuracy] relates a binary64 number to the real it denotes.
    - [Script]: the cells themselves, as programs over Python values in a
      state-and-exception monad: a global name space, the printed lines, and
      the exceptions ([NameError], [ZeroDivisionError], ...) that stop a
      cell.

    The properties follow the definitions: [Exact] (identities in exact
    arithmetic), [RootAccuracy] (the computed roots of Example 3 against the
    exact ones) and [Notebook] (what the cells print and raise, the sweep of
    Example 4 and its invariant, and the dependence of an example on the
    state it is started in). *)

From Stdlib Require Import ZArith QArith Qabs Qreals Reals Lra Lia Floats List.
From stdpp Require Import gmap strings.

Set Warnings "-inexact-float,-register-all".

(** ** The number interface *)

(** The operations the notebook applies to numbers. [lit] embeds the
    integer-valued literals that occur inside formulas ([1.], [2.], [4.] and
    the int [2] of [2*c], which Python converts to [2.0] before multiplying
    by a float). *)
Class Num (A : Type) := {
  lit  : Z -> A;
  add  : A -> A -> A;
  sub  : A -> A -> A;
  mul  : A -> A -> A;
  div  : A -> A -> A;
  neg  : A -> A;
  nabs : A -> A;
  sqrt : A -> A
}.

Declare Scope num_scope.
Delimit Scope num_scope with num.
Infix "+" := add : num_scope.
Infix "-" := sub : num_scope.
Infix "*" := mul : num_scope.
Infix "/" := div : num_scope.
Notation "- x" := (neg x) : num_scope.

(** Exact arithmetic. *)
#[export] Instance Num_R : Num R := {
  lit := IZR;
  add := Rplus;
  sub := Rminus;
  mul := Rmult;
  div := Rdiv;
  neg := Ropp;
  nabs := Rabs;
  sqrt := R_sqrt.sqrt
}.

(** Conversion of a Python [int] to [float]: round to nearest, ties to
    even. *)
Definition float_of_Z (z : Z) : float :=
  SF2Prim (binary_normalize prec emax z 0 false).

(** IEEE-754 binary64, the arithmetic of Python's [float]. *)
#[export] Instance Num_float : Num float := {
  lit := float_of_Z;
  add := PrimFloat.add;
  sub := PrimFloat.sub;
  mul := PrimFloat.mul;
  div := PrimFloat.div;
  neg := PrimFloat.opp;
  nabs := PrimFloat.abs;
  sqrt := PrimFloat.sqrt
}.

(** ** The formulas of the four examples *)

Module Formulas.
Section Generic.
Context {A : Type} `{Num A}.
Local Open Scope num_scope.

(** Example 2: [x = 1.], [y = 1. + delta * sqrt(2)],
    [res = (1./delta)*(y-x)]. *)
Definition ex2_x : A := lit 1.
Definition ex2_y (delta : A) : A := lit 1 + delta * sqrt (lit 2).
Definition ex2_res (delta : A) : A :=
  (lit 1 / delta) * (ex2_y delta - ex2_x).

(** Example 3, first form:
    [x1 = (-b + sqrt(b*b - 4.*a*c)) / (2.*a)],
    [x2 = (-b - sqrt(b*b - 4.*a*c)) / (2.*a)]. *)
Definition discriminant (a b c : A) : A := b * b - lit 4 * a * c.
Definition std_x1 (a b c : A) : A :=
  (- b + sqrt (discriminant a b c)) / (lit 2 * a).
Definition std_x2 (a b c : A) : A :=
  (- b - sqrt (discriminant a b c)) / (lit 2 * a).

(** Example 3, second form:
    [x1 = 2*c / (-b - sqrt(b*b-4.*a*c))],
    [x2 = 2*c / (-b + sqrt(b*b-4.*a*c))]. *)
Definition alt_x1 (a b c : A) : A :=
  lit 2 * c / (- b - sqrt (discriminant a b c)).
Definition alt_x2 (a b c : A) : A :=
  lit 2 * c / (- b + sqrt (discriminant a b c)).

(** Example 4: [f], [df_exact], [df_numeric] and the relative error
    computed in the loop,
    [abs(df_numeric(x0,h) - df_exact(x0)) / df_exact(x0)]. *)
Definition f (x : A) : A := x * (x - lit 1).
Definition df_exact (x : A) : A := lit 2 * x - lit 1.
Definition df_numeric (x h : A) : A := (f (x + h) - f x) / h.
Definition df_err (x h : A) : A :=
  nabs (df_numeric x h - df_exact x) / df_exact x.

(** The quadratic polynomial whose roots Example 3 computes. *)
Definition quadratic (a b c x : A) : A := a * x * x + b * x + c.
End Generic.
End Formulas.

(** The binary64 numbers the notebook's literals denote: Example 1's
    [eps], Example 2's [delta], Example 3's [a], [b], [c] and Example 4's
    [x0]. *)
Module Inputs.
Definition eps : float := 1e-12.
Definition delta : float := 1e-14.
Definition a : float := 1e-4.
Definition b : float := 1e4.
Definition c : float := 1e-4.
Definition x0 : float := 1.
End Inputs.

(** ** Binary64 against exact arithmetic: the roots of Example 3 *)

Module Accuracy.
Import Formulas.
Local Open Scope R_scope.

(** The rational and the real number a finite binary64 number denotes;
    infinities and NaN denote none. *)
Definition rational_value (x : float) : option Q :=
  match Prim2SF x with
  | S754_zero _ => Some 0%Q
  | S754_finite s m e =>
      let z := if s then Zneg m else Zpos m in
      Some (if (0 <=? e)%Z then inject_Z (z * 2 ^ e)
            else Qmake z (Z.to_pos (2 ^ (- e))))
  | S754_infinity _ | S754_nan => None
  end.

Definition real_value (x : float) : option R :=
  match rational_value x with
  | Some q => Some (Q2R q)
  | None => None
  end.

(** [x] is a binary64 number nearest to the rational [q]: neither
    neighbour of [x] is closer to [q]. *)
Definition nearest_binary64 (x : float) (q : Q) : bool :=
  match rational_value x,
        rational_value (next_down x), rational_value (next_up x) with
  | Some v, Some below, Some above =>
      Qle_bool (Qabs (v - q)) (Qabs (below - q))
      && Qle_bool (Qabs (v - q)) (Qabs (above - q))
  | _, _, _ => false
  end.

(** [computed] agrees with [exact] to relative tolerance [tol]. *)
Definition within (tol : R) (computed : float) (exact : R) : Prop :=
  match real_value computed with
  | Some v => Rabs (v - exact) <= tol * Rabs exact
  | None => False
  end.

(** The coefficients of Example 3 as real numbers, and the two roots of
    [a x^2 + b x + c = 0] in exact arithmetic. *)
Definition a : R := 1 / 10000.
Definition b : R := 10000.
Definition c : R := 1 / 10000.
Definition root1 : R := std_x1 a b c.
Definition root2 : R := std_x2 a b c.

(** Every root computed by either form of Example 3 agrees with the exact
    root it stands for, to relative tolerance [tol]. *)
Definition roots_match (tol : R) : Prop :=
  within tol (std_x1 Inputs.a Inputs.b Inputs.c) root1
  /\ within tol (std_x2 Inputs.a Inputs.b Inputs.c) root2
  /\ within tol (alt_x1 Inputs.a Inputs.b Inputs.c) root1
  /\ within tol (alt_x2 Inputs.a Inputs.b Inputs.c) root2.

(** The tolerance of Example 1, the only one the notebook states. *)
Definition eps : R := 1 / 10 ^ 12.

End Accuracy.

(** ** The notebook as a script over Python values *)

Module Script.

(** *** Values, exceptions and the interpreter state *)

(** Builtins the cells call, and [math.sqrt], which only an import binds. *)
Inductive builtin := BPrint | BAbs | BRange | BMathSqrt.

(** The three [def] statements of Example 4. *)
Inductive defn := DefF | DefDfExact | DefDfNumeric.

(** Python objects that occur in the notebook. [VFormat] is the string a
    [str.format] call returns, kept as format and arguments: the text of a
    printed number is a function of its value, and only values are
    compared here. *)
Inductive value :=
| VNone
| VBool (b : bool)
| VInt (z : Z)
| VFloat (x : float)
| VStr (s : string)
| VFormat (fmt : string) (args : list value)
| VList (l : list value)
| VDict (kv : list (value * value))
| VRange (start stop step : Z)
| VBuiltin (b : builtin)
| VDef (d : defn)
| VModule (name : string).

(** [Unmodelled] marks an operation on operands the notebook never
    combines (for instance [+] on lists); it is not a Python exception. *)
Inductive exn :=
| NameError (name : string)
| ZeroDivisionError
| ValueError
| OverflowError
| RecursionError
| TypeError
| Unmodelled.

(** What a cell shows: a [print] call with its arguments, or a call into
    matplotlib with its positional and keyword arguments. *)
Inductive event :=
| Printed (args : list value)
| Plotted (callee : list string) (args : list value)
    (kwargs : list (string * value)).

(** The kernel state: the global name space and what was shown so far.
    [divisors] is a ghost log of the right operand of every [/] evaluated;
    no cell reads it. *)
Record state := mkState {
  globals : gmap string value;
  stdout : list event;
  divisors : list value
}.

Definition fresh : state := mkState ∅ [] [].

Inductive result (A : Type) :=
| Ok (a : A) (s : state)
| Raise (e : exn) (s : state).
Arguments Ok {A} a s.
Arguments Raise {A} e s.

Definition M (A : Type) : Type := state -> result A.

Definition ret {A} (a : A) : M A := fun s => Ok a s.
Definition raise {A} (e : exn) : M A := fun s => Raise e s.
Definition bind {A B} (m : M A) (k : A -> M B) : M B :=
  fun s => match m s with
           | Ok a s' => k a s'
           | Raise e s' => Raise e s'
           end.
Definition lift {A} (r : exn + A) : M A :=
  match r with inl e => raise e | inr a => ret a end.

Declare Scope py_scope.
Delimit Scope py_scope with py.
Notation "x ← y ; z" := (bind y (fun x => z))
  (at level 20, y at level 100, z at level 200, only parsing) : py_scope.
Notation "x ;; z" := (bind x (fun _ => z))
  (at level 100, z at level 200, only parsing, right associativity) : py_scope.

Definition end_state {A} (r : result A) : state :=
  match r with Ok _ s => s | Raise _ s => s end.
Definition raised {A} (r : result A) : option exn :=
  match r with Ok _ _ => None | Raise e _ => Some e end.

(** *** Python arithmetic on values *)

Definition is_inf (x : float) : bool :=
  PrimFloat.eqb (PrimFloat.abs x) infinity.

(** [float(v)] as the arithmetic operators apply it to a numeric operand.
    Python's [bool] is numeric too; the notebook does no arithmetic on
    one. *)
Definition to_float (v : value) : exn + float :=
  match v with
  | VFloat x => inr x
  | VInt z => let x := float_of_Z z in
              if is_inf x then inl OverflowError else inr x
  | _ => inl Unmodelled
  end.

Definition arith (fz : Z -> Z -> Z) (ff : float -> float -> float)
    (v w : value) : exn + value :=
  match v, w with
  | VInt a, VInt b => inr (VInt (fz a b))
  | _, _ =>
      match to_float v, to_float w with
      | inr x, inr y => inr (VFloat (ff x y))
      | inl e, _ => inl e
      | _, inl e => inl e
      end
  end.

Definition pyadd := arith Z.add PrimFloat.add.
Definition pysub := arith Z.sub PrimFloat.sub.
Definition pymul := arith Z.mul PrimFloat.mul.

Definition pyneg (v : value) : exn + value :=
  match v with
  | VInt a => inr (VInt (- a))
  | VFloat x => inr (VFloat (- x))
  | _ => inl Unmodelled
  end.

Definition is_zero (x : float) : bool := PrimFloat.eqb x 0.

(** True division [v / w]: a zero divisor raises [ZeroDivisionError]. For
    two ints Python rounds the exact quotient; that is the quotient of the
    converted operands whenever both convert exactly, as every int of the
    notebook does. *)
Definition pydiv (v w : value) : exn + value :=
  match to_float v, to_float w with
  | inr x, inr y =>
      if is_zero y then inl ZeroDivisionError else inr (VFloat (x / y))
  | inl e, _ => inl e
  | _, inl e => inl e
  end.

(** [b ** e] on ints. A non-negative exponent stays an int. For a negative
    exponent CPython converts both operands to [float] and calls C's [pow],
    which is outside the repository: it is modelled by its correctly rounded
    result, computed as the (correctly rounded) quotient [1 / b^(-e)]; the
    two agree when [b^(-e)] is a binary64 number, as [10^k] is for
    [k <= 22]. *)
Definition pypow (v w : value) : exn + value :=
  match v, w with
  | VInt b, VInt e =>
      if (0 <=? e)%Z then inr (VInt (b ^ e))
      else if (b =? 0)%Z then inl ZeroDivisionError
      else inr (VFloat (1 / float_of_Z (b ^ (- e))))
  | _, _ => inl Unmodelled
  end.

(** [abs(v)] and [math.sqrt(v)]; the latter raises [ValueError] below
    zero. Both reject what is not a number with [TypeError]. *)
Definition pyabs (v : value) : exn + value :=
  match v with
  | VInt a => inr (VInt (Z.abs a))
  | VFloat x => inr (VFloat (PrimFloat.abs x))
  | VBool _ => inl Unmodelled
  | _ => inl TypeError
  end.

Definition math_sqrt (v : value) : exn + value :=
  match v with
  | VInt _ | VFloat _ =>
      match to_float v with
      | inr x => if PrimFloat.ltb x 0 then inl ValueError
                 else inr (VFloat (PrimFloat.sqrt x))
      | inl e => inl e
      end
  | VBool _ => inl Unmodelled
  | _ => inl TypeError
  end.

(** [==] and [<]. An int is compared with a float after conversion, which
    is exact for the ints of the notebook. *)
Definition compare_with (cz : Z -> Z -> bool) (cf : float -> float -> bool)
    (v w : value) : exn + value :=
  match v, w with
  | VInt a, VInt b => inr (VBool (cz a b))
  | _, _ =>
      match to_float v, to_float w with
      | inr x, inr y => inr (VBool (cf x y))
      | inl e, _ => inl e
      | _, inl e => inl e
      end
  end.

Definition pyeq := compare_with Z.eqb PrimFloat.eqb.
Definition pylt := compare_with Z.ltb PrimFloat.ltb.

(** The elements of [range(start, stop, step)], by Python's length formula.
    A zero step is rejected when the range is built. *)
Definition range_length (start stop step : Z) : Z :=
  if (0 <? step)%Z then Z.max 0 ((stop - start + step - 1) / step)
  else Z.max 0 ((start - stop - step - 1) / (- step)).

(** Truth value of an object in an [if]: zero, [None] and empty containers
    are false. The text of a formatted string is not modelled, so neither
    is its truth value. *)
Definition truthy (v : value) : exn + bool :=
  match v with
  | VNone => inr false
  | VBool b => inr b
  | VInt z => inr (negb (z =? 0)%Z)
  | VFloat x => inr (negb (is_zero x))
  | VStr s => inr (negb (String.eqb s ""))
  | VFormat _ _ => inl Unmodelled
  | VList l => inr (negb (Nat.eqb (length l) 0))
  | VDict kv => inr (negb (Nat.eqb (length kv) 0))
  | VRange a b c => inr (negb (range_length a b c =? 0)%Z)
  | VBuiltin _ | VDef _ | VModule _ => inr true
  end.

Definition range_elements (start stop step : Z) : list Z :=
  map (fun k => (start + Z.of_nat k * step)%Z)
      (seq 0 (Z.to_nat (range_length start stop step))).

(** What a [for] loop iterates over. Strings and dicts are iterable too;
    the notebook iterates over none. *)
Definition iterate (v : value) : exn + list value :=
  match v with
  | VList l => inr l
  | VRange a b c => inr (map VInt (range_elements a b c))
  | VStr _ | VFormat _ _ | VDict _ => inl Unmodelled
  | VNone | VBool _ | VInt _ | VFloat _ | VBuiltin _ | VDef _ | VModule _ =>
      inl TypeError
  end.

(** *** Expressions and statements *)

Local Open Scope py_scope.

Definition expr := M value.

(** Name lookup: the globals first, then the builtins. Of Python's
    builtins the table holds the three the notebook names; [sqrt] is not a
    builtin. *)
Definition builtins (name : string) : option value :=
  if String.eqb name "print" then Some (VBuiltin BPrint)
  else if String.eqb name "abs" then Some (VBuiltin BAbs)
  else if String.eqb name "range" then Some (VBuiltin BRange)
  else None.

Definition var (name : string) : expr :=
  fun s => match globals s !! name with
           | Some v => Ok v s
           | None => match builtins name with
                     | Some v => Ok v s
                     | None => Raise (NameError name) s
                     end
           end.

Definition set_global (name : string) (v : value) : M unit :=
  fun s => Ok tt (mkState (<[name := v]> (globals s)) (stdout s) (divisors s)).

Definition emit (e : event) : M unit :=
  fun s => Ok tt (mkState (globals s) (stdout s ++ [e]) (divisors s)).

Definition log_divisor (v : value) : M unit :=
  fun s => Ok tt (mkState (globals s) (stdout s) (divisors s ++ [v])).

Definition int (z : Z) : expr := ret (VInt z).
Definition flt (x : float) : expr := ret (VFloat x).
Definition str (t : string) : expr := ret (VStr t).
Definition val (v : value) : expr := ret v.
Arguments int z%_Z.
Arguments flt x%_float.
Arguments str t%_string.

(** Operands are evaluated left to right, then the operator is applied. *)
Definition binop (op : value -> value -> exn + value) (e1 e2 : expr) : expr :=
  v ← e1; w ← e2; lift (op v w).

Definition eadd := binop pyadd.
Definition esub := binop pysub.
Definition emul := binop pymul.
Definition epow := binop pypow.
Definition eeq := binop pyeq.
Definition elt := binop pylt.
Definition ediv (e1 e2 : expr) : expr :=
  v ← e1; w ← e2; log_divisor w;; lift (pydiv v w).
Definition eneg (e : expr) : expr := v ← e; lift (pyneg v).

Infix "+" := eadd : py_scope.
Infix "-" := esub : py_scope.
Infix "*" := emul : py_scope.
Infix "/" := ediv : py_scope.
Infix "**" := epow (at level 30, right associativity) : py_scope.
Notation "- e" := (eneg e) : py_scope.

Fixpoint eval_args (args : list expr) : M (list value) :=
  match args with
  | [] => ret []
  | e :: rest => v ← e; vs ← eval_args rest; ret (v :: vs)
  end.

Fixpoint eval_kwargs (kwargs : list (string * expr))
    : M (list (string * value)) :=
  match kwargs with
  | [] => ret []
  | (k, e) :: rest => v ← e; vs ← eval_kwargs rest; ret ((k, v) :: vs)
  end.

(** A call evaluates the callee, then the arguments, then applies. *)
Definition call_with (ap : value -> list value -> M value)
    (fn : expr) (args : list expr) : expr :=
  fv ← fn; vs ← eval_args args; ap fv vs.

(** [s.format(args)] on a string literal. *)
Definition format (fmt : string) (args : list expr) : expr :=
  vs ← eval_args args; ret (VFormat fmt vs).
Arguments format fmt%_string args.

(** The bodies of the notebook's functions. Parameters are locals; [f] is
    looked up in the globals when [df_numeric] runs.
<<
def f(x):
    return x*(x-1.)
def df_exact(x):
    return 2.*x - 1.
def df_numeric(x,h):
    return (f(x+h) - f(x)) / h
>> *)
Definition f (x : value) : M value :=
  val x * (val x - flt 1).

Definition df_exact (x : value) : M value :=
  flt 2 * val x - flt 1.

Definition df_numeric (call : expr -> list expr -> expr) (x h : value)
    : M value :=
  (call (var "f") [val x + val h] - call (var "f") [val x]) / val h.

(** Application of a callable. [depth] is the number of Python frames
    still available; exhausting it is Python's [RecursionError]. *)
Fixpoint apply (depth : nat) (fn : value) (args : list value) : M value :=
  match depth with
  | O => raise RecursionError
  | S d =>
      match fn, args with
      | VBuiltin BPrint, _ => emit (Printed args);; ret VNone
      | VBuiltin BAbs, [v] => lift (pyabs v)
      | VBuiltin BMathSqrt, [v] => lift (math_sqrt v)
      | VBuiltin BRange, [VInt b] => ret (VRange 0 b 1)
      | VBuiltin BRange, [VInt a; VInt b] => ret (VRange a b 1)
      | VBuiltin BRange, [VInt a; VInt b; VInt c] =>
          if (c =? 0)%Z then raise ValueError else ret (VRange a b c)
      | VDef DefF, [x] => f x
      | VDef DefDfExact, [x] => df_exact x
      | VDef DefDfNumeric, [x; h] => df_numeric (call_with (apply d)) x h
      | (VBuiltin _ | VDef _), _ => raise TypeError
      | (VNone | VBool _ | VInt _ | VFloat _ | VStr _ | VFormat _ _
         | VList _ | VDict _ | VRange _ _ _ | VModule _), _ => raise TypeError
      end
  end.

(** CPython's default recursion limit. *)
Definition recursion_limit : nat := 1000.

Definition call : expr -> list expr -> expr :=
  call_with (apply recursion_limit).

(** Statements. *)
Definition assign (name : string) (e : expr) : M unit :=
  v ← e; set_global name v.
Notation "x ::= e" := (assign x%string e) (at level 90) : py_scope.

Definition exec (e : expr) : M unit := _ ← e; ret tt.

Definition print (args : list expr) : M unit := exec (call (var "print") args).

Definition if_ (c : expr) (thn els : M unit) : M unit :=
  v ← c; b ← lift (truthy v); if b then thn else els.

Fixpoint for_each (x : string) (items : list value) (body : M unit)
    : M unit :=
  match items with
  | [] => ret tt
  | v :: rest => set_global x v;; body;; for_each x rest body
  end.

Definition for_ (x : string) (iterable : expr) (body : M unit) : M unit :=
  v ← iterable; items ← lift (iterate v); for_each x items body.

Definition def (name : string) (d : defn) : M unit :=
  set_global name (VDef d).

(** [from math import sqrt] and [import matplotlib.pyplot as plt]. *)
Definition from_math_import_sqrt : M unit :=
  set_global "sqrt" (VBuiltin BMathSqrt).
Definition import_pyplot_as (name : string) : M unit :=
  set_global name (VModule "matplotlib.pyplot").

(** [name.append(e)] on a list bound to a global name. No list of the
    notebook has a second name, so the list is updated where it is
    bound. *)
Definition append (name : string) (e : expr) : M unit :=
  l ← var name; v ← e;
  match l with
  | VList items => set_global name (VList (items ++ [v]))
  | _ => raise Unmodelled
  end.

(** A call [m.path(args, kwargs)] into the plotting module bound to [m]:
    the arguments are evaluated and the call is recorded. What matplotlib
    does with them is outside the repository. *)
Definition plot_call (m : string) (path : list string) (args : list expr)
    (kwargs : list (string * expr)) : M unit :=
  mv ← var m; vs ← eval_args args; kvs ← eval_kwargs kwargs;
  match mv with
  | VModule _ => emit (Plotted path vs kvs)
  | _ => raise Unmodelled
  end.

Definition dict (kv : list (string * string)) : expr :=
  ret (VDict (map (fun p => (VStr (fst p), VStr (snd p))) kv)).

Infix "==" := eeq (at level 70, no associativity) : py_scope.
Infix "<" := elt : py_scope.

(** *** The cells *)

(** The test of Example 1's first cell, [x == 3.3]. *)
Definition ex1_exact_test : expr := var "x" == flt 3.3.

(** Example 1, first cell.
<<
x = 1.1 + 2.2
print("x = ",x)
print(3.3)
if (x == 3.3):
    print("x == 3.3 is True")
else:
    print("x == 3.3 is False")
>> *)
Definition ex1_cell1 : M unit :=
  "x" ::= flt 1.1 + flt 2.2;;
  print [str "x = "; var "x"];;
  print [flt 3.3];;
  if_ ex1_exact_test
    (print [str "x == 3.3 is True"])
    (print [str "x == 3.3 is False"]).

(** The test of Example 1's second cell, [abs(x-3.3) < eps]. *)
Definition ex1_tolerant_test : expr :=
  call (var "abs") [var "x" - flt 3.3] < var "eps".

(** Example 1, second cell.
<<
print("x = ",x)
eps = 1.e-12
if (abs(x-3.3) < eps):
    print("x == 3.3 to a precision of",eps,"is True")
else:
    print("x == 3.3 to a precision of",eps,"is False")
>> *)
Definition ex1_cell2 : M unit :=
  print [str "x = "; var "x"];;
  "eps" ::= flt 1e-12;;
  if_ ex1_tolerant_test
    (print [str "x == 3.3 to a precision of"; var "eps"; str "is True"])
    (print [str "x == 3.3 to a precision of"; var "eps"; str "is False"]).

(** Example 2.
<<
from math import sqrt
delta = 1.e-14
x = 1.
y = 1. + delta * sqrt(2)
print("x = ", x)
print("y = ", y)
res = (1./delta)*(y-x)
print("(1/delta) * (y-x) = ",res)
print("The accurate value is sqrt(2) = ", sqrt(2))
print("The difference is ", res - sqrt(2))
>> *)
Definition ex2_cell : M unit :=
  from_math_import_sqrt;;
  "delta" ::= flt 1e-14;;
  "x" ::= flt 1;;
  "y" ::= flt 1 + var "delta" * call (var "sqrt") [int 2];;
  print [str "x = "; var "x"];;
  print [str "y = "; var "y"];;
  "res" ::= (flt 1 / var "delta") * (var "y" - var "x");;
  print [str "(1/delta) * (y-x) = "; var "res"];;
  print [str "The accurate value is sqrt(2) = "; call (var "sqrt") [int 2]];;
  print [str "The difference is "; var "res" - call (var "sqrt") [int 2]].

(** Example 3, first cell.
<<
a = 1.e-4
b = 1.e4
c = 1.e-4
x1 = (-b + sqrt(b*b - 4.*a*c)) / (2.*a)
x2 = (-b - sqrt(b*b - 4.*a*c)) / (2.*a)
print("x1 = ", x1)
print("x2 = ", x2)
>> *)
Definition ex3_cell1 : M unit :=
  "a" ::= flt 1e-4;;
  "b" ::= flt 1e4;;
  "c" ::= flt 1e-4;;
  "x1" ::= (- var "b" + call (var "sqrt")
              [var "b" * var "b" - flt 4 * var "a" * var "c"])
           / (flt 2 * var "a");;
  "x2" ::= (- var "b" - call (var "sqrt")
              [var "b" * var "b" - flt 4 * var "a" * var "c"])
           / (flt 2 * var "a");;
  print [str "x1 = "; var "x1"];;
  print [str "x2 = "; var "x2"].

(** Example 3, second cell.
<<
x1 = 2*c / (-b - sqrt(b*b-4.*a*c))
x2 = 2*c / (-b + sqrt(b*b-4.*a*c))
print("x1 = ", x1)
print("x2 = ", x2)
>> *)
Definition ex3_cell2 : M unit :=
  "x1" ::= int 2 * var "c"
           / (- var "b" - call (var "sqrt")
                [var "b" * var "b" - flt 4 * var "a" * var "c"]);;
  "x2" ::= int 2 * var "c"
           / (- var "b" + call (var "sqrt")
                [var "b" * var "b" - flt 4 * var "a" * var "c"]);;
  print [str "x1 = "; var "x1"];;
  print [str "x2 = "; var "x2"].

(** Example 4: the body of the sweep loop.
<<
    h = 10**i
    df_val = df_numeric(x0,h)
    df_err = abs(df_numeric(x0,h) - df_exact(x0)) / df_exact(x0)
    print("{:<10} {:<20} {:<20}".format(h,df_val,df_err))
    arr_h.append(h)
    arr_df.append(df_val)
    arr_err.append(df_err)
>> *)
Definition sweep_body : M unit :=
  "h" ::= int 10 ** var "i";;
  "df_val" ::= call (var "df_numeric") [var "x0"; var "h"];;
  "df_err" ::= call (var "abs")
                 [call (var "df_numeric") [var "x0"; var "h"]
                  - call (var "df_exact") [var "x0"]]
               / call (var "df_exact") [var "x0"];;
  print [format "{:<10} {:<20} {:<20}" [var "h"; var "df_val"; var "df_err"]];;
  append "arr_h" (var "h");;
  append "arr_df" (var "df_val");;
  append "arr_err" (var "df_err").

(** Example 4, first cell: what precedes the loop (the three [def]s
    above, then the statements below), and the loop.
<<
print("{:<10} {:<20} {:<20}".format('h',"f'(1)","Relative error"))
x0 = 1.
arr_h = []
arr_df = []
arr_err = []
for i in range(0,-20,-1):
>> *)
Definition sweep_setup : M unit :=
  def "f" DefF;;
  def "df_exact" DefDfExact;;
  def "df_numeric" DefDfNumeric;;
  print [format "{:<10} {:<20} {:<20}"
           [str "h"; str "f'(1)"; str "Relative error"]];;
  "x0" ::= flt 1;;
  "arr_h" ::= val (VList []);;
  "arr_df" ::= val (VList []);;
  "arr_err" ::= val (VList []).

Definition sweep_range : expr :=
  call (var "range") [int 0; - int 20; - int 1].

Definition ex4_cell1 : M unit :=
  sweep_setup;;
  for_ "i" sweep_range sweep_body.

(** Example 4, second cell: the plot.
<<
import matplotlib.pyplot as plt
params = {'legend.fontsize': 'large',
         'axes.labelsize': 'x-large',
         'axes.titlesize':'x-large',
         'xtick.labelsize':'x-large',
         'ytick.labelsize':'x-large',
         'xtick.direction':'in',
         'ytick.direction':'in',
         }
plt.rcParams.update(params)
plt.title("Accuracy of the numerical derivative")
plt.xlabel("${h}$", fontsize=18)
plt.ylabel("relative error", fontsize=18)
plt.xscale('log')
plt.yscale('log')
plt.scatter(arr_h, arr_err, color="red")
plt.show()
>> *)
Definition ex4_cell2 : M unit :=
  import_pyplot_as "plt";;
  "params" ::= dict [("legend.fontsize", "large");
                     ("axes.labelsize", "x-large");
                     ("axes.titlesize", "x-large");
                     ("xtick.labelsize", "x-large");
                     ("ytick.labelsize", "x-large");
                     ("xtick.direction", "in");
                     ("ytick.direction", "in")]%string;;
  plot_call "plt" ["rcParams"; "update"]%string [var "params"] [];;
  plot_call "plt" ["title"]%string
    [str "Accuracy of the numerical derivative"] [];;
  plot_call "plt" ["xlabel"]%string [str "${h}$"]
    [("fontsize"%string, int 18)];;
  plot_call "plt" ["ylabel"]%string [str "relative error"]
    [("fontsize"%string, int 18)];;
  plot_call "plt" ["xscale"]%string [str "log"] [];;
  plot_call "plt" ["yscale"]%string [str "log"] [];;
  plot_call "plt" ["scatter"]%string [var "arr_h"; var "arr_err"]
    [("color"%string, str "red")];;
  plot_call "plt" ["show"]%string [] [].

(** *** The notebook *)

Inductive example := Ex1 | Ex2 | Ex3 | Ex4.

Definition cells (e : example) : M unit :=
  match e with
  | Ex1 => ex1_cell1;; ex1_cell2
  | Ex2 => ex2_cell
  | Ex3 => ex3_cell1;; ex3_cell2
  | Ex4 => ex4_cell1;; ex4_cell2
  end.

(** The cells in document order, in one kernel. *)
Definition notebook : M unit :=
  cells Ex1;; cells Ex2;; cells Ex3;; cells Ex4.

(** The examples that precede [e] in the notebook. *)
Definition before (e : example) : M unit :=
  match e with
  | Ex1 => ret tt
  | Ex2 => cells Ex1
  | Ex3 => cells Ex1;; cells Ex2
  | Ex4 => cells Ex1;; cells Ex2;; cells Ex3
  end.

(** What a program shows when started in state [s]. *)
Definition output_from (p : M unit) (s : state) : list event :=
  drop (length (stdout s)) (stdout (end_state (p s))).

(** An example run on its own in a fresh kernel, and run at its place in
    the notebook. *)
Definition output_alone (e : example) : list event :=
  output_from (cells e) fresh.
Definition output_within (e : example) : list event :=
  output_from (cells e) (end_state (before e fresh)).

(** The final state of the notebook run in a fresh kernel, and the helpers
    the statements below use to read a state. *)
Definition final : state := end_state (notebook fresh).

Definition global_list (s : state) (name : string) : list value :=
  match globals s !! name with
  | Some (VList l) => l
  | _ => []
  end.

(** A divisor that [/] accepts: a number other than zero. *)
Definition nonzero (v : value) : bool :=
  match to_float v with
  | inr y => negb (is_zero y)
  | inl _ => false
  end.

(** The value [10**i] takes in the sweep. *)
Definition step_size (i : Z) : value :=
  match pypow (VInt 10) (VInt i) with
  | inr v => v
  | inl _ => VNone
  end.

(** [10**i] as the float the arithmetic of the sweep converts it to. *)
Definition step_float (i : Z) : float :=
  match to_float (step_size i) with
  | inr x => x
  | inl _ => nan
  end.

(** [v] stands for the power [10^i]: exactly when it is an int, as a
    nearest binary64 number when it is a float. *)
Definition is_power_of_ten (i : Z) (v : value) : bool :=
  match v with
  | VInt z => Qeq_bool (inject_Z z) (Qpower 10 i)
  | VFloat x => Accuracy.nearest_binary64 x (Qpower 10 i)
  | _ => false
  end.

Fixpoint strictly_decreasing (l : list value) : bool :=
  match l with
  | v :: (w :: _) as rest =>
      match pylt w v with
      | inr (VBool true) => strictly_decreasing rest
      | _ => false
      end
  | _ => true
  end.

(** The relative error the loop stores for a stored derivative [d]:
    [abs(d - df_exact(x0)) / df_exact(x0)] at [x0 = 1.]. *)
Definition relative_error (d : value) : option value :=
  match d with
  | VFloat y =>
      Some (VFloat (PrimFloat.abs (y - Formulas.df_exact Inputs.x0)
                    / Formulas.df_exact Inputs.x0))
  | _ => None
  end.

(** The state after the first [n] iterations of the sweep. *)
Definition sweep_after (n : nat) : result unit :=
  (sweep_setup;;
   for_each "i" (map VInt (take n (range_elements 0 (-20) (-1))))
     sweep_body) fresh.

(** The three lists agree in length and every stored error is the
    relative error of the stored derivative at the same index. *)
Definition sweep_invariant (s : state) : Prop :=
  length (global_list s "arr_h") = length (global_list s "arr_df")
  /\ length (global_list s "arr_df") = length (global_list s "arr_err")
  /\ forall (k : nat) (d : value),
       global_list s "arr_df" !! k = Some d ->
       exists e, relative_error d = Some e
                 /\ global_list s "arr_err" !! k = Some e.

(** What the loop body relies on: the three [def]s and [x0] are bound as
    the cell binds them, [print] and [abs] are not shadowed by a global,
    and the three names are bound to the lists [lh], [ld], [le]. *)
Record sweep_state (s : state) (lh ld le : list value) : Prop := {
  env_f : globals s !! "f" = Some (VDef DefF);
  env_df_exact : globals s !! "df_exact" = Some (VDef DefDfExact);
  env_df_numeric : globals s !! "df_numeric" = Some (VDef DefDfNumeric);
  env_x0 : globals s !! "x0" = Some (VFloat Inputs.x0);
  env_print : globals s !! "print" = None;
  env_abs : globals s !! "abs" = None;
  env_arr_h : globals s !! "arr_h" = Some (VList lh);
  env_arr_df : globals s !! "arr_df" = Some (VList ld);
  env_arr_err : globals s !! "arr_err" = Some (VList le)
}.

(** *** What an iteration computes, as a function of [i] *)

(** The operations one iteration of the sweep performs on values, in the
    order the body performs them; the first that fails decides the
    exception. *)
Definition obind {A B} (r : exn + A) (k : A -> exn + B) : exn + B :=
  match r with inl e => inl e | inr a => k a end.

Definition f_value (x : value) : exn + value :=
  obind (pysub x (VFloat 1)) (fun t => pymul x t).

Definition df_exact_value (x : value) : exn + value :=
  obind (pymul (VFloat 2) x) (fun t => pysub t (VFloat 1)).

Definition df_numeric_value (x h : value) : exn + value :=
  obind (pyadd x h) (fun a =>
  obind (f_value a) (fun fa =>
  obind (f_value x) (fun fx =>
  obind (pysub fa fx) (fun n => pydiv n h)))).

(** [h], [df_val] and [df_err] of the iteration for [i]. *)
Definition sweep_row (i : Z) : exn + (value * value * value) :=
  obind (pypow (VInt 10) (VInt i)) (fun h =>
  obind (df_numeric_value (VFloat Inputs.x0) h) (fun df =>
  obind (df_numeric_value (VFloat Inputs.x0) h) (fun df' =>
  obind (df_exact_value (VFloat Inputs.x0)) (fun ex =>
  obind (pysub df' ex) (fun d =>
  obind (pyabs d) (fun a =>
  obind (df_exact_value (VFloat Inputs.x0)) (fun ex' =>
  obind (pydiv a ex') (fun err => inr (h, df, err))))))))).

Fixpoint sweep_rows (ints : list Z) : exn + list (value * value * value) :=
  match ints with
  | [] => inr []
  | i :: rest =>
      obind (sweep_row i) (fun r =>
      obind (sweep_rows rest) (fun rs => inr (r :: rs)))
  end.

(** What the plot cell shows, given the lists bound to [arr_h] and
    [arr_err]. *)
Definition plot_output (hs errs : list value) : list event :=
  [ Plotted ["rcParams"; "update"]
      [VDict [(VStr "legend.fontsize", VStr "large");
              (VStr "axes.labelsize", VStr "x-large");
              (VStr "axes.titlesize", VStr "x-large");
              (VStr "xtick.labelsize", VStr "x-large");
              (VStr "ytick.labelsize", VStr "x-large");
              (VStr "xtick.direction", VStr "in");
              (VStr "ytick.direction", VStr "in")]] [];
    Plotted ["title"] [VStr "Accuracy of the numerical derivative"] [];
    Plotted ["xlabel"] [VStr "${h}$"] [("fontsize", VInt 18)];
    Plotted ["ylabel"] [VStr "relative error"] [("fontsize", VInt 18)];
    Plotted ["xscale"] [VStr "log"] [];
    Plotted ["yscale"] [VStr "log"] [];
    Plotted ["scatter"] [VList hs; VList errs] [("color", VStr "red")];
    Plotted ["show"] [] [] ]%string.

(** The rows of the notebook's sweep. *)
Definition notebook_rows : list (value * value * value) :=
  match sweep_rows (range_elements 0 (-20) (-1)) with
  | inr rows => rows
  | inl _ => []
  end.

(** No global shadows a builtin the notebook calls. *)
Definition unshadowed (s : state) : Prop :=
  globals s !! "print" = None
  /\ globals s !! "abs" = None
  /\ globals s !! "range" = None.

(** A line of the table Example 4 prints. *)
Definition row (h df err : value) : event :=
  Printed [VFormat "{:<10} {:<20} {:<20}" [h; df; err]].

Definition row_of (r : value * value * value) : event :=
  row (fst (fst r)) (snd (fst r)) (snd r).

End Script.

(** * Properties *)

(** ** Exact arithmetic: the identities behind the examples *)

Module Exact.
Import Formulas.
Local Open Scope R_scope.

(** The formulas read in exact arithmetic. *)
Lemma std_roots_exact (a b c : R) :
  std_x1 a b c = (- b + R_sqrt.sqrt (b * b - 4 * a * c)) / (2 * a)
  /\ std_x2 a b c = (- b - R_sqrt.sqrt (b * b - 4 * a * c)) / (2 * a).
Proof. split; reflexivity. Qed.

Lemma alt_roots_exact (a b c : R) :
  alt_x1 a b c = 2 * c / (- b - R_sqrt.sqrt (b * b - 4 * a * c))
  /\ alt_x2 a b c = 2 * c / (- b + R_sqrt.sqrt (b * b - 4 * a * c)).
Proof. split; reflexivity. Qed.

Lemma sqrt_discriminant_sqr (a b c : R) :
  0 <= b * b - 4 * a * c ->
  R_sqrt.sqrt (b * b - 4 * a * c) * R_sqrt.sqrt (b * b - 4 * a * c)
  = b * b - 4 * a * c.
Proof. intros Hd. now apply sqrt_sqrt. Qed.

(** The two denominators of the second form multiply to [4ac]. *)
Lemma alt_denominators (a b c : R) :
  0 <= b * b - 4 * a * c ->
  (- b - R_sqrt.sqrt (b * b - 4 * a * c))
  * (- b + R_sqrt.sqrt (b * b - 4 * a * c)) = 4 * a * c.
Proof.
  intros Hd. pose proof (sqrt_discriminant_sqr a b c Hd) as Hs.
  set (s := R_sqrt.sqrt _) in *. nra.
Qed.

Lemma alt_denominators_nonzero (a b c : R) :
  a <> 0 -> c <> 0 -> 0 <= b * b - 4 * a * c ->
  - b - R_sqrt.sqrt (b * b - 4 * a * c) <> 0
  /\ - b + R_sqrt.sqrt (b * b - 4 * a * c) <> 0.
Proof.
  intros Ha Hc Hd. pose proof (alt_denominators a b c Hd) as Hp.
  assert (4 * a * c <> 0) as Hac.
  { apply Rmult_integral_contrapositive_currified; [|assumption].
    apply Rmult_integral_contrapositive_currified; [lra | assumption]. }
  split; intros Hz; rewrite Hz in Hp; lra.
Qed.

(** C1: in exact arithmetic the two forms of each quadratic root agree
    whenever [a <> 0], [c <> 0] and the discriminant is non-negative. *)
Theorem quadratic_forms_equivalent (a b c : R) :
  a <> 0 -> c <> 0 -> 0 <= b * b - 4 * a * c ->
  std_x1 a b c = alt_x1 a b c /\ std_x2 a b c = alt_x2 a b c.
Proof.
  intros Ha Hc Hd.
  destruct (alt_denominators_nonzero a b c Ha Hc Hd) as [Hm Hp].
  pose proof (sqrt_discriminant_sqr a b c Hd) as Hs.
  unfold std_x1, std_x2, alt_x1, alt_x2, discriminant; simpl.
  set (s := R_sqrt.sqrt _) in *.
  split.
  - apply Rmult_eq_reg_r with (r := 2 * a * (- b - s)).
    + field_simplify; [nra | assumption | assumption].
    + apply Rmult_integral_contrapositive_currified; [|assumption].
      apply Rmult_integral_contrapositive_currified; [lra | assumption].
  - apply Rmult_eq_reg_r with (r := 2 * a * (- b + s)).
    + field_simplify; [nra | assumption | assumption].
    + apply Rmult_integral_contrapositive_currified; [|assumption].
      apply Rmult_integral_contrapositive_currified; [lra | assumption].
Qed.

Lemma quadratic_forms_equivalent_witness :
  (1 <> 0 /\ 2 <> 0 /\ 0 <= 3 * 3 - 4 * 1 * 2)
  /\ std_x1 1 3 2 = alt_x1 1 3 2 /\ std_x2 1 3 2 = alt_x2 1 3 2.
Proof.
  split; [repeat split; lra | apply (quadratic_forms_equivalent 1 3 2); lra].
Defined.

(** C3: each value of the quadratic formula is a root of
    [a x^2 + b x + c = 0] when [a <> 0] and the discriminant is
    non-negative. *)
Theorem quadratic_formula_roots (a b c : R) :
  a <> 0 -> 0 <= b * b - 4 * a * c ->
  quadratic a b c (std_x1 a b c) = 0 /\ quadratic a b c (std_x2 a b c) = 0.
Proof.
  intros Ha Hd.
  pose proof (sqrt_discriminant_sqr a b c Hd) as Hs.
  unfold quadratic, std_x1, std_x2, discriminant; simpl.
  set (s := R_sqrt.sqrt _) in *.
  split.
  - replace (a * ((- b + s) / (2 * a)) * ((- b + s) / (2 * a))
             + b * ((- b + s) / (2 * a)) + c)
      with ((s * s - (b * b - 4 * a * c)) / (4 * a)) by (field; assumption).
    rewrite Hs. unfold Rdiv. rewrite Rminus_diag. apply Rmult_0_l.
  - replace (a * ((- b - s) / (2 * a)) * ((- b - s) / (2 * a))
             + b * ((- b - s) / (2 * a)) + c)
      with ((s * s - (b * b - 4 * a * c)) / (4 * a)) by (field; assumption).
    rewrite Hs. unfold Rdiv. rewrite Rminus_diag. apply Rmult_0_l.
Qed.

Lemma quadratic_formula_roots_witness :
  (1 <> 0 /\ 0 <= 3 * 3 - 4 * 1 * 2)
  /\ quadratic 1 3 2 (std_x1 1 3 2) = 0
  /\ quadratic 1 3 2 (std_x2 1 3 2) = 0.
Proof.
  split; [split; lra | apply (quadratic_formula_roots 1 3 2); lra].
Defined.

(** C2: for [f(x) = x(x-1)] the forward difference is
    [df_numeric(x,h) = 2x - 1 + h = df_exact(x) + h] for every [h <> 0], so
    its truncation error is exactly [h]; at [x = 1] it is [1 + h]. *)
Theorem df_numeric_truncation (x h : R) :
  h <> 0 ->
  df_numeric x h = (f (x + h) - f x) / h
  /\ df_numeric x h = 2 * x - 1 + h
  /\ df_numeric x h = df_exact x + h
  /\ df_numeric 1 h - df_exact 1 = h.
Proof.
  intros Hh. unfold df_numeric, df_exact, f; simpl.
  repeat split; field; assumption.
Qed.

Lemma df_numeric_truncation_witness :
  1 / 2 <> 0
  /\ df_numeric 3 (1 / 2) = (f (3 + 1 / 2) - f 3) / (1 / 2)
  /\ df_numeric 3 (1 / 2) = 2 * 3 - 1 + 1 / 2
  /\ df_numeric 3 (1 / 2) = df_exact 3 + 1 / 2
  /\ df_numeric 1 (1 / 2) - df_exact 1 = 1 / 2.
Proof. split; [lra | apply (df_numeric_truncation 3 (1 / 2)); lra]. Defined.

(** C4: with [x = 1] and [y = 1 + delta * sqrt 2], the quantity
    [(1/delta) * (y - x)] is [sqrt 2] for every [delta <> 0]. *)
Theorem ex2_identity (delta : R) :
  delta <> 0 ->
  ex2_x = 1 /\ ex2_y delta = 1 + delta * R_sqrt.sqrt 2
  /\ ex2_res delta = R_sqrt.sqrt 2.
Proof.
  intros Hd. unfold ex2_res, ex2_y, ex2_x; simpl.
  repeat split. field; assumption.
Qed.

Lemma ex2_identity_witness :
  1 / 10 ^ 14 <> 0
  /\ ex2_x = 1 /\ ex2_y (1 / 10 ^ 14) = 1 + 1 / 10 ^ 14 * R_sqrt.sqrt 2
  /\ ex2_res (1 / 10 ^ 14) = R_sqrt.sqrt 2.
Proof. split; [lra | apply (ex2_identity (1 / 10 ^ 14)); lra]. Defined.

End Exact.

(** ** Binary64 against exact arithmetic: the accuracy of the roots *)

Module RootAccuracy.
Import Formulas Accuracy.
Local Open Scope R_scope.

Lemma real_value_finite (x : float) (s : bool) (m : positive) (e : Z) :
  Prim2SF x = S754_finite s m e -> (e < 0)%Z ->
  real_value x
  = Some (IZR (if s then Zneg m else Zpos m) / IZR (2 ^ (- e))).
Proof.
  intros Hx He. unfold real_value, rational_value. rewrite Hx.
  destruct (Z.leb_spec 0 e); [lia|].
  unfold Q2R, Rdiv. cbn [Qnum Qden].
  rewrite Z2Pos.id by (apply Z.pow_pos_nonneg; lia). reflexivity.
Qed.

Lemma value_std_x1 :
  real_value (std_x1 Inputs.a Inputs.b Inputs.c)
  = Some (- 5497558138880000 / 604462909807314587353088).
Proof.
  rewrite (real_value_finite _ true 5497558138880000 (-79));
    [reflexivity | vm_compute; reflexivity | lia].
Qed.

Lemma value_std_x2 :
  real_value (std_x2 Inputs.a Inputs.b Inputs.c)
  = Some (- 6710886400000000 / 67108864).
Proof.
  rewrite (real_value_finite _ true 6710886400000000 (-26));
    [reflexivity | vm_compute; reflexivity | lia].
Qed.

Lemma value_alt_x1 :
  real_value (alt_x1 Inputs.a Inputs.b Inputs.c)
  = Some (- 6044629098073146 / 604462909807314587353088).
Proof.
  rewrite (real_value_finite _ true 6044629098073146 (-79));
    [reflexivity | vm_compute; reflexivity | lia].
Qed.

Lemma value_alt_x2 :
  real_value (alt_x2 Inputs.a Inputs.b Inputs.c)
  = Some (- 7378697629483821 / 67108864).
Proof.
  rewrite (real_value_finite _ true 7378697629483821 (-26));
    [reflexivity | vm_compute; reflexivity | lia].
Qed.

(** The square root of the discriminant, [sqrt (10^8 - 4/10^8)], lies
    within [3/10^28] below [10^4 - 2/10^12]. *)
Lemma sqrt_discriminant_bounds :
  10000 - 2 / 10 ^ 12 - 3 / 10 ^ 28 <= R_sqrt.sqrt (discriminant a b c)
  /\ R_sqrt.sqrt (discriminant a b c) <= 10000 - 2 / 10 ^ 12.
Proof.
  change (discriminant a b c) with (b * b - 4 * a * c). unfold a, b, c.
  split.
  - set (u := 10000 - 2 / 10 ^ 12 - 3 / 10 ^ 28).
    rewrite <- (sqrt_square u) by (unfold u; lra).
    apply sqrt_le_1_alt. unfold u. lra.
  - set (u := 10000 - 2 / 10 ^ 12).
    rewrite <- (sqrt_square u) by (unfold u; lra).
    apply sqrt_le_1_alt. unfold u. lra.
Qed.

Lemma root1_bounds :
  - (1 / 10 ^ 8) - 15 / 10 ^ 25 <= root1 /\ root1 <= - (1 / 10 ^ 8).
Proof.
  destruct sqrt_discriminant_bounds as [Hlo Hhi].
  change root1 with ((- b + R_sqrt.sqrt (discriminant a b c)) / (2 * a)).
  set (s := R_sqrt.sqrt _) in *. unfold a, b. split; lra.
Qed.

Lemma root2_bounds :
  - 10 ^ 8 + 1 / 10 ^ 8 <= root2
  /\ root2 <= - 10 ^ 8 + 1 / 10 ^ 8 + 15 / 10 ^ 25.
Proof.
  destruct sqrt_discriminant_bounds as [Hlo Hhi].
  change root2 with ((- b - R_sqrt.sqrt (discriminant a b c)) / (2 * a)).
  set (s := R_sqrt.sqrt _) in *. unfold a, b. split; lra.
Qed.

(** Relative agreement with a negative exact value, as two linear
    bounds. *)
Lemma within_negative (tol v r : R) :
  r < 0 -> - (tol * - r) <= v - r <= tol * - r ->
  Rabs (v - r) <= tol * Rabs r.
Proof.
  intros Hr Hb. rewrite (Rabs_left r Hr). apply Rabs_le. exact Hb.
Qed.

Lemma not_within_negative (tol v r : R) :
  r < 0 -> tol * - r < v - r \/ v - r < - (tol * - r) ->
  ~ Rabs (v - r) <= tol * Rabs r.
Proof.
  intros Hr Hb Habs. rewrite (Rabs_left r Hr) in Habs.
  pose proof (Rle_abs (v - r)) as Hpos.
  pose proof (Rle_abs (- (v - r))) as Hneg. rewrite Rabs_Ropp in Hneg.
  destruct Hb; lra.
Qed.

(** The first form loses [x1] and the second loses [x2]: each is off by
    more than nine percent. *)
Lemma std_x1_inaccurate :
  ~ within (9 / 100) (std_x1 Inputs.a Inputs.b Inputs.c) root1.
Proof.
  generalize root1_bounds. generalize root1. intros r [Hlo Hhi].
  unfold within. rewrite value_std_x1.
  apply not_within_negative.
  - lra.
  - left. lra.
Qed.

Lemma alt_x2_inaccurate :
  ~ within (9 / 100) (alt_x2 Inputs.a Inputs.b Inputs.c) root2.
Proof.
  generalize root2_bounds. generalize root2. intros r [Hlo Hhi].
  unfold within. rewrite value_alt_x2.
  apply not_within_negative.
  - lra.
  - right. lra.
Qed.

Lemma std_x2_accurate :
  within (1 / 10 ^ 15) (std_x2 Inputs.a Inputs.b Inputs.c) root2.
Proof.
  generalize root2_bounds. generalize root2. intros r [Hlo Hhi].
  unfold within. rewrite value_std_x2.
  apply within_negative.
  - lra.
  - lra.
Qed.

Lemma alt_x1_accurate :
  within (1 / 10 ^ 15) (alt_x1 Inputs.a Inputs.b Inputs.c) root1.
Proof.
  generalize root1_bounds. generalize root1. intros r [Hlo Hhi].
  unfold within. rewrite value_alt_x1.
  apply within_negative.
  - lra.
  - lra.
Qed.

(** Read as an absolute tolerance, [eps] is exceeded as well: [x1] of the
    first form is off by more than [9/10^10]. *)
Lemma std_x1_off_absolutely :
  exists v, real_value (std_x1 Inputs.a Inputs.b Inputs.c) = Some v
            /\ eps < 9 / 10 ^ 10 /\ 9 / 10 ^ 10 < Rabs (v - root1).
Proof.
  generalize root1_bounds. generalize root1. intros r [Hlo Hhi].
  rewrite value_std_x1. eexists. split; [reflexivity|].
  split; [unfold eps; lra|].
  eapply Rlt_le_trans; [|apply Rle_abs]. lra.
Qed.

(** A looser tolerance accepts what a tighter one accepts. *)
Lemma within_mono (tol tol' : R) (x : float) (r : R) :
  tol <= tol' -> within tol x r -> within tol' x r.
Proof.
  unfold within. intros Ht. destruct (real_value x) as [v|]; [|tauto].
  intros Hw. apply Rle_trans with (1 := Hw).
  apply Rmult_le_compat_r; [apply Rabs_pos | exact Ht].
Qed.

Lemma roots_match_needs_nine_percent (tol : R) :
  tol <= 9 / 100 -> ~ roots_match tol.
Proof.
  intros Ht (H1 & _). apply std_x1_inaccurate.
  exact (within_mono _ _ _ _ Ht H1).
Qed.

(** C6, refuted as stated: at the tolerance of Example 1 the computed
    roots do not all match the exact ones. *)
Lemma roots_do_not_all_match : ~ roots_match eps.
Proof.
  apply roots_match_needs_nine_percent. unfold eps. lra.
Qed.

(** C6, amended: for [a = 1e-4], [b = 1e4], [c = 1e-4] in binary64, [x2] of
    the first form and [x1] of the second form agree with the exact roots
    to a relative error of [1e-15], while [x1] of the first form and [x2]
    of the second form differ from them by more than nine percent. *)
Theorem quadratic_roots_accuracy :
  within (1 / 10 ^ 15) (std_x2 Inputs.a Inputs.b Inputs.c) root2
  /\ within (1 / 10 ^ 15) (alt_x1 Inputs.a Inputs.b Inputs.c) root1
  /\ ~ within (9 / 100) (std_x1 Inputs.a Inputs.b Inputs.c) root1
  /\ ~ within (9 / 100) (alt_x2 Inputs.a Inputs.b Inputs.c) root2.
Proof.
  split; [exact std_x2_accurate|].
  split; [exact alt_x1_accurate|].
  split; [exact std_x1_inaccurate | exact alt_x2_inaccurate].
Qed.

End RootAccuracy.

(** ** The notebook run: output, exceptions, the sweep *)

Module Notebook.
Import Script.
Local Open Scope py_scope.

(** Closed statements about runs are settled by evaluating the model. *)
Ltac run := vm_compute; reflexivity.
Ltac run_each := repeat match goal with |- _ /\ _ => split end; run.

(** *** What the cells print *)

(** The model prints the values recorded in the notebook's output cells
    (each number below is the text Python printed, read back as the
    binary64 number nearest to it). *)
Lemma recorded_output_examples_1_to_3 :
  stdout (end_state ((cells Ex1;; cells Ex2;; cells Ex3) fresh)) =
  [ Printed [VStr "x = "; VFloat 3.3000000000000003];
    Printed [VFloat 3.3];
    Printed [VStr "x == 3.3 is False"];
    Printed [VStr "x = "; VFloat 3.3000000000000003];
    Printed [VStr "x == 3.3 to a precision of"; VFloat 1e-12; VStr "is True"];
    Printed [VStr "x = "; VFloat 1.0];
    Printed [VStr "y = "; VFloat 1.0000000000000142];
    Printed [VStr "(1/delta) * (y-x) = "; VFloat 1.4210854715202004];
    Printed [VStr "The accurate value is sqrt(2) = ";
             VFloat 1.4142135623730951];
    Printed [VStr "The difference is "; VFloat 0.006871909147105226];
    Printed [VStr "x1 = "; VFloat (-9.094947017729282e-09)];
    Printed [VStr "x2 = "; VFloat (-100000000.0)];
    Printed [VStr "x1 = "; VFloat (-1e-08)];
    Printed [VStr "x2 = "; VFloat (-109951162.7776)] ].
Proof. run. Qed.

Lemma recorded_output_example_4 :
  output_from ex4_cell1 fresh =
  [ row (VStr "h") (VStr "f'(1)") (VStr "Relative error");
    row (VInt 1) (VFloat 2.0) (VFloat 1.0);
    row (VFloat 0.1) (VFloat 1.100000000000001) (VFloat 0.10000000000000098);
    row (VFloat 0.01) (VFloat 1.010000000000001)
        (VFloat 0.010000000000000897);
    row (VFloat 0.001) (VFloat 1.0009999999998895)
        (VFloat 0.0009999999998895337);
    row (VFloat 0.0001) (VFloat 1.0000999999998899)
        (VFloat 9.999999988985486e-05);
    row (VFloat 1e-05) (VFloat 1.0000100000065513)
        (VFloat 1.0000006551269536e-05);
    row (VFloat 1e-06) (VFloat 1.0000009999177333)
        (VFloat 9.99917733279787e-07);
    row (VFloat 1e-07) (VFloat 1.0000001005838672)
        (VFloat 1.0058386723521551e-07);
    row (VFloat 1e-08) (VFloat 1.0000000039225287)
        (VFloat 3.922528746258536e-09);
    row (VFloat 1e-09) (VFloat 1.000000083740371)
        (VFloat 8.374037108183074e-08);
    row (VFloat 1e-10) (VFloat 1.000000082840371)
        (VFloat 8.284037100736441e-08);
    row (VFloat 1e-11) (VFloat 1.000000082750371)
        (VFloat 8.275037099991778e-08);
    row (VFloat 1e-12) (VFloat 1.0000889005833413)
        (VFloat 8.890058334132256e-05);
    row (VFloat 1e-13) (VFloat 0.9992007221627407)
        (VFloat 0.0007992778372593046);
    row (VFloat 1e-14) (VFloat 0.9992007221626509)
        (VFloat 0.0007992778373491216);
    row (VFloat 1e-15) (VFloat 1.1102230246251577)
        (VFloat 0.11022302462515765);
    row (VFloat 1e-16) (VFloat 0.0) (VFloat 1.0);
    row (VFloat 1e-17) (VFloat 0.0) (VFloat 1.0);
    row (VFloat 1e-18) (VFloat 0.0) (VFloat 1.0);
    row (VFloat 1e-19) (VFloat 0.0) (VFloat 1.0) ].
Proof. run. Qed.

(** The values the cells leave bound are the formulas of [Formulas], read
    in binary64, at the notebook's inputs. *)
Lemma cells_compute_formulas :
  globals final !! "y" = Some (VFloat (Formulas.ex2_y Inputs.delta))
  /\ globals final !! "res" = Some (VFloat (Formulas.ex2_res Inputs.delta))
  /\ globals (end_state ((before Ex3;; ex3_cell1) fresh)) !! "x1"
     = Some (VFloat (Formulas.std_x1 Inputs.a Inputs.b Inputs.c))
  /\ globals (end_state ((before Ex3;; ex3_cell1) fresh)) !! "x2"
     = Some (VFloat (Formulas.std_x2 Inputs.a Inputs.b Inputs.c))
  /\ globals final !! "x1"
     = Some (VFloat (Formulas.alt_x1 Inputs.a Inputs.b Inputs.c))
  /\ globals final !! "x2"
     = Some (VFloat (Formulas.alt_x2 Inputs.a Inputs.b Inputs.c))
  /\ global_list final "arr_df"
     = map (fun i => VFloat (Formulas.df_numeric Inputs.x0 (step_float i)))
         (range_elements 0 (-20) (-1))
  /\ global_list final "arr_err"
     = map (fun i => VFloat (Formulas.df_err Inputs.x0 (step_float i)))
         (range_elements 0 (-20) (-1)).
Proof. run_each. Qed.

(** *** Example 1 *)

(** C5: in binary64, with [x = 1.1 + 2.2], the test [x == 3.3] is [False]
    and the test [abs(x - 3.3) < eps] with [eps = 1e-12] is [True]; the
    cells print the matching branch. *)
Theorem ex1_equality_tests :
  let s := end_state (cells Ex1 fresh) in
  PrimFloat.eqb (1.1 + 2.2) 3.3 = false
  /\ PrimFloat.ltb (PrimFloat.abs (1.1 + 2.2 - 3.3)) Inputs.eps = true
  /\ cells Ex1 fresh = Ok tt s
  /\ globals s !! "x" = Some (VFloat (1.1 + 2.2))
  /\ globals s !! "eps" = Some (VFloat Inputs.eps)
  /\ ex1_exact_test s = Ok (VBool false) s
  /\ ex1_tolerant_test s = Ok (VBool true) s
  /\ stdout s =
     [ Printed [VStr "x = "; VFloat (1.1 + 2.2)];
       Printed [VFloat 3.3];
       Printed [VStr "x == 3.3 is False"];
       Printed [VStr "x = "; VFloat (1.1 + 2.2)];
       Printed [VStr "x == 3.3 to a precision of"; VFloat Inputs.eps;
                VStr "is True"] ].
Proof.
  cbv zeta. run_each.
Qed.

(** *** Divisions *)

(** [/] raises [ZeroDivisionError] exactly on a zero divisor. *)
Lemma pydiv_zero_divisor (v w : value) (x y : float) :
  to_float v = inr x -> to_float w = inr y ->
  pydiv v w = inl ZeroDivisionError <-> is_zero y = true.
Proof.
  intros Hv Hw. unfold pydiv. rewrite Hv, Hw.
  destruct (is_zero y); split; intros E; congruence.
Qed.

Lemma pydiv_nonzero (v w : value) (x : float) :
  to_float v = inr x -> nonzero w = true ->
  exists q, pydiv v w = inr (VFloat q).
Proof.
  intros Hv Hw. unfold nonzero in Hw. unfold pydiv. rewrite Hv.
  destruct (to_float w) as [e|y]; [discriminate|].
  destruct (is_zero y); [discriminate|]. eexists; reflexivity.
Qed.

(** C8: the notebook raises no exception, and the divisors of all the
    divisions it evaluates, in order, are [delta], [2a] twice,
    [-b - sqrt(b*b-4ac)], [-b + sqrt(b*b-4ac)] and, for each [i] of the
    sweep, [h = 10**i] twice and [df_exact(x0)]; none of them is zero. *)
Theorem no_division_by_zero :
  raised (notebook fresh) = None
  /\ divisors final =
     [ VFloat Inputs.delta;
       VFloat (lit 2 * Inputs.a)%num;
       VFloat (lit 2 * Inputs.a)%num;
       VFloat (- Inputs.b
               - sqrt (Formulas.discriminant Inputs.a Inputs.b Inputs.c))%num;
       VFloat (- Inputs.b
               + sqrt (Formulas.discriminant Inputs.a Inputs.b Inputs.c))%num ]
     ++ flat_map
          (fun i => [step_size i; step_size i;
                     VFloat (Formulas.df_exact Inputs.x0)])
          (range_elements 0 (-20) (-1))
  /\ forallb nonzero (divisors final) = true.
Proof. run_each. Qed.

(** *** The sweep *)

(** C9: the sweep runs over [range(0,-20,-1)], that is over
    [i = 0, -1, ..., -19]: twenty iterations, after which the loop ends
    without an exception; [arr_h] holds [10**i] for these [i] in that
    order (the int [1], then the binary64 numbers nearest to [10^i]),
    strictly decreasing, and the three lists have length 20. *)
Theorem sweep_twenty_iterations :
  let s := end_state (ex4_cell1 fresh) in
  range_elements 0 (-20) (-1)
  = [0; -1; -2; -3; -4; -5; -6; -7; -8; -9;
     -10; -11; -12; -13; -14; -15; -16; -17; -18; -19]%Z
  /\ ex4_cell1 fresh = Ok tt s
  /\ global_list s "arr_h" = map step_size (range_elements 0 (-20) (-1))
  /\ forallb (fun i => is_power_of_ten i (step_size i))
       (range_elements 0 (-20) (-1)) = true
  /\ strictly_decreasing (global_list s "arr_h") = true
  /\ length (global_list s "arr_h") = 20
  /\ length (global_list s "arr_df") = 20
  /\ length (global_list s "arr_err") = 20
  /\ length (output_from (for_ "i" sweep_range sweep_body)
               (end_state (sweep_setup fresh))) = 20.
Proof. cbv zeta. run_each. Qed.

(** *** The loop invariant *)

(** Symbolic execution of a cell from a state whose name space is only
    partly known: unfold the monad, resolve name lookups through the
    inserts made so far, apply callables once callee and arguments are
    values, and split on the outcome of each arithmetic operation (reusing
    the outcome when the same operation recurs). *)
Lemma var_unfold (x : string) (s : state) :
  var x s = match globals s !! x with
            | Some v => Ok v s
            | None => match builtins x with
                      | Some v => Ok v s
                      | None => Raise (NameError x) s
                      end
            end.
Proof. reflexivity. Qed.

Lemma call_unfold (fn : expr) (args : list expr) :
  call fn args = call_with (apply (S 999)) fn args.
Proof. reflexivity. Qed.

Lemma apply_f (d : nat) (x : value) : apply (S d) (VDef DefF) [x] = f x.
Proof. reflexivity. Qed.

Lemma apply_df_exact (d : nat) (x : value) :
  apply (S d) (VDef DefDfExact) [x] = df_exact x.
Proof. reflexivity. Qed.

Lemma apply_df_numeric (d : nat) (x h : value) :
  apply (S d) (VDef DefDfNumeric) [x; h]
  = df_numeric (call_with (apply d)) x h.
Proof. reflexivity. Qed.

Lemma apply_abs (d : nat) (v : value) :
  apply (S d) (VBuiltin BAbs) [v] = lift (pyabs v).
Proof. reflexivity. Qed.

Lemma apply_print (d : nat) (vs : list value) :
  apply (S d) (VBuiltin BPrint) vs = (emit (Printed vs);; ret VNone).
Proof. reflexivity. Qed.

Lemma builtins_abs : builtins "abs" = Some (VBuiltin BAbs).
Proof. reflexivity. Qed.

Lemma builtins_print : builtins "print" = Some (VBuiltin BPrint).
Proof. reflexivity. Qed.

Ltac unfold_m :=
  cbv [bind ret raise lift val flt int str binop eadd esub emul ediv
       eneg epow eeq elt call_with eval_args eval_kwargs log_divisor assign
       exec set_global emit if_ for_each append format print def f df_exact
       df_numeric obind f_value df_exact_value df_numeric_value sweep_row];
  cbn [globals stdout divisors].

Ltac case_op :=
  match goal with
  | |- context [match ?r with inl _ => _ | inr _ => _ end] =>
      lazymatch r with
      | match _ with inl _ => _ | inr _ => _ end => fail
      | _ => lazymatch goal with
             | H : r = _ |- _ => rewrite H
             | _ => destruct r eqn:?
             end
      end
  end.

Ltac lookups :=
  repeat first [ rewrite lookup_insert_eq
               | rewrite lookup_insert_ne by discriminate ].

Ltac step :=
  first [ progress unfold_m
        | rewrite var_unfold
        | progress lookups
        | rewrite call_unfold
        | rewrite apply_f
        | rewrite apply_df_exact
        | rewrite apply_df_numeric
        | rewrite apply_abs
        | rewrite apply_print
        | rewrite builtins_abs
        | rewrite builtins_print
        | case_op ].

Lemma df_exact_x0 : Formulas.df_exact Inputs.x0 = 1%float.
Proof. run. Qed.

(** [/] yields a float whenever it yields anything. *)
Lemma pydiv_float (v w r : value) :
  pydiv v w = inr r -> exists q, r = VFloat q.
Proof.
  unfold pydiv. destruct (to_float v), (to_float w); try discriminate.
  destruct (is_zero _); [discriminate|]. intros [= <-]. eauto.
Qed.

Lemma df_numeric_value_float (x h v : value) :
  df_numeric_value x h = inr v -> exists q, v = VFloat q.
Proof.
  unfold df_numeric_value, obind.
  destruct (pyadd x h); [discriminate|].
  destruct (f_value _); [discriminate|].
  destruct (f_value x); [discriminate|].
  destruct (pysub _ _); [discriminate|]. apply pydiv_float.
Qed.

(** The error an iteration stores is the relative error of the derivative
    it stores: [df_numeric(x0,h)] is evaluated twice, by the same
    operations on the same operands. *)
Lemma sweep_row_relative_error (i : Z) (h df err : value) :
  sweep_row i = inr (h, df, err) -> relative_error df = Some err.
Proof.
  unfold sweep_row. unfold obind at 1.
  destruct (pypow _ _) as [|h']; [discriminate|].
  unfold obind at 1.
  destruct (df_numeric_value _ h') as [|y] eqn:Hy; [discriminate|].
  destruct (df_numeric_value_float _ _ _ Hy) as [q ->].
  cbv [obind]. intros [= <- <- <-].
  unfold relative_error. rewrite df_exact_x0. reflexivity.
Qed.

(** Split a hypothesis [H : ... = inr _] over the outcome of each
    operation it is made of; the failing outcomes contradict it. *)
Ltac invert_ops H :=
  repeat match type of H with
         | context [match ?r with inl _ => _ | inr _ => _ end] =>
             lazymatch r with
             | match _ with inl _ => _ | inr _ => _ end => fail
             | _ => destruct r eqn:?; [discriminate H|]; cbv beta iota in H
             end
         end.

(** One iteration, for any [i], from any state that satisfies
    [sweep_state]: if the operations of [sweep_row i] succeed, the body
    raises nothing, prints one row and appends to the three lists. *)
Lemma sweep_body_run (i : Z) (s : state) (lh ld le : list value)
    (h df err : value) :
  sweep_state s lh ld le ->
  sweep_row i = inr (h, df, err) ->
  exists s',
    (set_global "i" (VInt i);; sweep_body) s = Ok tt s'
    /\ sweep_state s' (lh ++ [h]) (ld ++ [df]) (le ++ [err])
    /\ stdout s' = stdout s ++ [row h df err].
Proof.
  intros [Hf Hdfe Hdfn Hx0 Hpr Habs Hh Hd He] Hrow.
  destruct s as [g out dv]. cbn [globals stdout] in *.
  cbv [sweep_row df_numeric_value df_exact_value f_value obind] in Hrow.
  invert_ops Hrow. injection Hrow as <- <- <-.
  unfold sweep_body.
  repeat first [ step | rewrite Hf | rewrite Hdfe | rewrite Hdfn
               | rewrite Hx0 | rewrite Hpr | rewrite Habs
               | rewrite Hh | rewrite Hd | rewrite He ].
  eexists. split; [reflexivity|]. split; [|reflexivity].
  split; cbn [globals]; lookups; first [assumption | reflexivity].
Qed.

(** The loop over any list of ints whose rows can all be computed. *)
Lemma sweep_loop_run (ints : list Z) :
  forall (s : state) (lh ld le : list value)
         (rows : list (value * value * value)),
    sweep_state s lh ld le ->
    sweep_rows ints = inr rows ->
    exists s',
      for_each "i" (map VInt ints) sweep_body s = Ok tt s'
      /\ sweep_state s' (lh ++ map (fun r => fst (fst r)) rows)
           (ld ++ map (fun r => snd (fst r)) rows)
           (le ++ map snd rows)
      /\ stdout s' = stdout s ++ map row_of rows.
Proof.
  induction ints as [|i ints IH]; intros s lh ld le rows Hs Hrows.
  - injection Hrows as <-. exists s. cbn [map]. rewrite !app_nil_r.
    split; [reflexivity|]. split; [exact Hs | reflexivity].
  - cbn [sweep_rows] in Hrows. unfold obind in Hrows.
    destruct (sweep_row i) as [|[[h df] err]] eqn:Hrow; [discriminate|].
    destruct (sweep_rows ints) as [|rest] eqn:Hrest; [discriminate|].
    injection Hrows as <-.
    destruct (sweep_body_run i s lh ld le h df err Hs Hrow)
      as (s1 & Hrun & Hs1 & Hout1).
    destruct (IH s1 _ _ _ rest Hs1 eq_refl) as (s2 & Hloop & Hs2 & Hout2).
    exists s2. cbn [map for_each fst snd].
    split; [|split].
    + unfold bind in *. cbn [set_global] in *.
      destruct (sweep_body _) as [[] s1'|e s1']; [|discriminate].
      injection Hrun as ->. exact Hloop.
    + rewrite <- !app_assoc in Hs2. exact Hs2.
    + rewrite Hout2, Hout1, <- app_assoc. reflexivity.
Qed.

Lemma sweep_rows_take (n : nat) (ints : list Z) :
  forall rows, sweep_rows ints = inr rows ->
               sweep_rows (take n ints) = inr (take n rows).
Proof.
  revert ints. induction n as [|n IH]; intros ints rows Hrows.
  - reflexivity.
  - destruct ints as [|i ints].
    + injection Hrows as <-. reflexivity.
    + cbn [sweep_rows take] in *. unfold obind in *.
      destruct (sweep_row i) as [|r]; [discriminate|].
      destruct (sweep_rows ints) as [|rest] eqn:Hrest; [discriminate|].
      injection Hrows as <-. rewrite (IH ints rest Hrest). reflexivity.
Qed.

Lemma sweep_rows_relative_error (ints : list Z) :
  forall rows, sweep_rows ints = inr rows ->
               Forall (fun r => relative_error (snd (fst r)) = Some (snd r))
                 rows.
Proof.
  induction ints as [|i ints IH]; intros rows Hrows.
  - injection Hrows as <-. constructor.
  - cbn [sweep_rows] in Hrows. unfold obind in Hrows.
    destruct (sweep_row i) as [|[[h df] err]] eqn:Hrow; [discriminate|].
    destruct (sweep_rows ints) as [|rest] eqn:Hrest; [discriminate|].
    injection Hrows as <-. constructor; [|now apply IH].
    exact (sweep_row_relative_error i h df err Hrow).
Qed.

(** The statements before the loop, from any state in which [print] and
    [abs] are not shadowed; no other name the sweep reads is left to the
    state the cell is started in. *)
Lemma sweep_setup_run (s : state) :
  globals s !! "print" = None -> globals s !! "abs" = None ->
  exists s',
    sweep_setup s = Ok tt s'
    /\ sweep_state s' [] [] []
    /\ stdout s' = stdout s ++ [row (VStr "h") (VStr "f'(1)")
                                  (VStr "Relative error")]
    /\ globals s' !! "range" = globals s !! "range".
Proof.
  intros Hpr Habs. destruct s as [g out dv]. cbn [globals stdout] in *.
  unfold sweep_setup.
  repeat first [ step | rewrite Hpr | rewrite Habs ].
  eexists. split; [reflexivity|]. split; [|split; [reflexivity|]].
  - split; cbn [globals]; lookups; first [assumption | reflexivity].
  - cbn [globals]. lookups. reflexivity.
Qed.

(** All twenty rows of the sweep can be computed. *)
Lemma sweep_rows_ok :
  sweep_rows (range_elements 0 (-20) (-1)) = inr notebook_rows
  /\ length notebook_rows = 20.
Proof. split; run. Qed.

(** C10: after every iteration of the sweep (after the first [n], for each
    [n]; the loop is over after twenty) the three lists have the same
    length, and at every index the entry of [arr_err] is
    [abs(d - df_exact(x0)) / df_exact(x0)] for the entry [d] of [arr_df]. *)
Theorem sweep_loop_invariant (n : nat) :
  exists s, sweep_after n = Ok tt s
            /\ length (global_list s "arr_h") = Nat.min n 20
            /\ sweep_invariant s.
Proof.
  destruct sweep_rows_ok as (Hrows20 & Hlen20).
  pose proof (sweep_rows_take n _ _ Hrows20) as Hrows.
  pose proof (sweep_rows_relative_error _ _ Hrows) as Hrel.
  set (rows := take n notebook_rows) in *.
  destruct (sweep_setup_run fresh eq_refl eq_refl) as (s0 & Hsetup & Hs0 & _).
  destruct (sweep_loop_run _ s0 [] [] [] rows Hs0 Hrows)
    as (s & Hloop & [_ _ _ _ _ _ Hh Hd He] & _).
  exists s. cbn [app] in Hh, Hd, He.
  unfold sweep_invariant, global_list. rewrite Hh, Hd, He, !length_map.
  split; [|split; [|split; [reflexivity|split; [reflexivity|]]]].
  - unfold sweep_after, bind. rewrite Hsetup. exact Hloop.
  - unfold rows. rewrite length_take. lia.
  - intros k d Hk. rewrite list_lookup_fmap in Hk |- *.
    destruct (rows !! k) as [r|] eqn:Hr; [|discriminate].
    injection Hk as <-. exists (snd r). split; [|reflexivity].
    exact (proj1 (Forall_lookup _ _) Hrel k r Hr).
Qed.

(** *** Independence from the state a cell is started in *)

Lemma apply_math_sqrt (d : nat) (v : value) :
  apply (S d) (VBuiltin BMathSqrt) [v] = lift (math_sqrt v).
Proof. reflexivity. Qed.

Lemma apply_range (d : nat) (a b c : Z) :
  apply (S d) (VBuiltin BRange) [VInt a; VInt b; VInt c]
  = if (c =? 0)%Z then raise ValueError else ret (VRange a b c).
Proof. reflexivity. Qed.

Lemma builtins_range : builtins "range" = Some (VBuiltin BRange).
Proof. reflexivity. Qed.

Lemma builtins_sqrt : builtins "sqrt" = None.
Proof. reflexivity. Qed.

(** Evaluate an operation on known operands, or a known test. *)
Ltac eval_op :=
  match goal with
  | |- context [match ?r with inl _ => _ | inr _ => _ end] =>
      lazymatch r with
      | match _ with inl _ => _ | inr _ => _ end => fail
      | _ => let r' := eval vm_compute in r in change r with r'
      end
  | |- context [if ?b then _ else _] =>
      let b' := eval vm_compute in b in change b with b'
  end.

Ltac step_known :=
  first [ progress unfold_m
        | progress cbv [plot_call dict for_ from_math_import_sqrt
                        import_pyplot_as]
        | rewrite var_unfold
        | progress lookups
        | rewrite call_unfold
        | rewrite apply_abs
        | rewrite apply_print
        | rewrite apply_math_sqrt
        | rewrite apply_range
        | rewrite builtins_abs
        | rewrite builtins_print
        | rewrite builtins_range
        | rewrite builtins_sqrt
        | eval_op ].

Lemma ex1_run (s : state) :
  unshadowed s ->
  exists s', cells Ex1 s = Ok tt s'
             /\ stdout s' = stdout s ++ output_alone Ex1.
Proof.
  intros (Hpr & Habs & Hrg). destruct s as [g out dv].
  cbn [globals stdout] in *.
  unfold cells, ex1_cell1, ex1_cell2, ex1_exact_test, ex1_tolerant_test.
  repeat first [ step_known | rewrite Hpr | rewrite Habs ].
  eexists. split; [reflexivity|]. cbn [stdout].
  rewrite <- !app_assoc. cbn [app]. f_equal.
Qed.

Lemma ex2_run (s : state) :
  unshadowed s ->
  exists s', cells Ex2 s = Ok tt s'
             /\ stdout s' = stdout s ++ output_alone Ex2.
Proof.
  intros (Hpr & Habs & Hrg). destruct s as [g out dv].
  cbn [globals stdout] in *.
  unfold cells, ex2_cell.
  repeat first [ step_known | rewrite Hpr | rewrite Habs ].
  eexists. split; [reflexivity|]. cbn [stdout].
  rewrite <- !app_assoc. cbn [app]. f_equal.
Qed.

(** Example 3 needs [sqrt] bound, and nothing else. *)
Lemma ex3_run (s : state) :
  unshadowed s ->
  globals s !! "sqrt" = Some (VBuiltin BMathSqrt) ->
  exists s', cells Ex3 s = Ok tt s'
             /\ stdout s' = stdout s ++ output_within Ex3.
Proof.
  intros (Hpr & Habs & Hrg) Hsqrt. destruct s as [g out dv].
  cbn [globals stdout] in *.
  unfold cells, ex3_cell1, ex3_cell2.
  repeat first [ step_known | rewrite Hpr | rewrite Habs | rewrite Hsqrt ].
  eexists. split; [reflexivity|]. cbn [stdout].
  rewrite <- !app_assoc. cbn [app]. f_equal.
Qed.

Lemma ex3_unbound_sqrt (s : state) :
  globals s !! "sqrt" = None ->
  raised (cells Ex3 s) = Some (NameError "sqrt")
  /\ stdout (end_state (cells Ex3 s)) = stdout s.
Proof.
  intros Hsqrt. destruct s as [g out dv].
  cbn [globals stdout] in *.
  unfold cells, ex3_cell1, ex3_cell2.
  repeat first [ step_known | rewrite Hsqrt ].
  split; reflexivity.
Qed.

(** The iterable of the sweep, wherever [range] is the builtin. *)
Lemma sweep_range_run (s : state) :
  globals s !! "range" = None ->
  sweep_range s = Ok (VRange 0 (-20) (-1)) s.
Proof.
  intros Hrg. destruct s as [g out dv]. cbn [globals] in *.
  unfold sweep_range.
  repeat first [ step_known | rewrite Hrg ]. reflexivity.
Qed.

(** The plot cell, given the two lists it reads. *)
Lemma ex4_cell2_run (s : state) (lh le : list value) :
  globals s !! "arr_h" = Some (VList lh) ->
  globals s !! "arr_err" = Some (VList le) ->
  exists s', ex4_cell2 s = Ok tt s'
             /\ stdout s' = stdout s ++ plot_output lh le.
Proof.
  intros Hh He. destruct s as [g out dv]. cbn [globals stdout] in *.
  unfold ex4_cell2.
  repeat first [ step_known | rewrite Hh | rewrite He ].
  eexists. split; [reflexivity|]. cbn [stdout].
  rewrite <- !app_assoc. reflexivity.
Qed.

Lemma ex4_output :
  output_alone Ex4
  = row (VStr "h") (VStr "f'(1)") (VStr "Relative error")
    :: map row_of notebook_rows
    ++ plot_output (map (fun r => fst (fst r)) notebook_rows)
         (map snd notebook_rows).
Proof. run. Qed.

Lemma ex4_run (s : state) :
  unshadowed s ->
  exists s', cells Ex4 s = Ok tt s'
             /\ stdout s' = stdout s ++ output_alone Ex4.
Proof.
  intros (Hpr & Habs & Hrg).
  destruct (sweep_setup_run s Hpr Habs) as (s1 & Hsetup & Hs1 & Hout1 & Hrg1).
  rewrite Hrg in Hrg1.
  destruct (sweep_loop_run _ s1 [] [] [] _ Hs1 (proj1 sweep_rows_ok))
    as (s2 & Hloop & Hs2 & Hout2).
  cbn [app] in Hs2.
  destruct (ex4_cell2_run s2 _ _ (env_arr_h _ _ _ _ Hs2)
              (env_arr_err _ _ _ _ Hs2)) as (s3 & Hplot & Hout3).
  exists s3. split.
  - unfold cells, ex4_cell1, for_, bind.
    rewrite Hsetup, (sweep_range_run s1 Hrg1). cbn [lift iterate ret].
    rewrite Hloop. exact Hplot.
  - rewrite Hout3, Hout2, Hout1, ex4_output, <- !app_assoc. reflexivity.
Qed.

(** Output of a program that appends [o] to what was shown before. *)
Lemma output_from_app (p : M unit) (s s' : state) (o : list event) :
  p s = Ok tt s' -> stdout s' = stdout s ++ o -> output_from p s = o.
Proof.
  intros Hrun Hout. unfold output_from. rewrite Hrun. cbn [end_state].
  rewrite Hout. apply drop_app_length.
Qed.

(** Two-run form: started in any two states in which the builtins are not
    shadowed, Examples 1, 2 and 4 print the same, and so does Example 3
    if [sqrt] is bound to [math.sqrt] in both. *)
Lemma examples_noninterference (s1 s2 : state) :
  unshadowed s1 -> unshadowed s2 ->
  output_from (cells Ex1) s1 = output_from (cells Ex1) s2
  /\ output_from (cells Ex2) s1 = output_from (cells Ex2) s2
  /\ output_from (cells Ex4) s1 = output_from (cells Ex4) s2
  /\ (globals s1 !! "sqrt" = Some (VBuiltin BMathSqrt) ->
      globals s2 !! "sqrt" = Some (VBuiltin BMathSqrt) ->
      output_from (cells Ex3) s1 = output_from (cells Ex3) s2).
Proof.
  intros H1 H2.
  destruct (ex1_run s1 H1) as (? & R11 & O11).
  destruct (ex1_run s2 H2) as (? & R12 & O12).
  destruct (ex2_run s1 H1) as (? & R21 & O21).
  destruct (ex2_run s2 H2) as (? & R22 & O22).
  destruct (ex4_run s1 H1) as (? & R41 & O41).
  destruct (ex4_run s2 H2) as (? & R42 & O42).
  rewrite (output_from_app _ _ _ _ R11 O11), (output_from_app _ _ _ _ R12 O12).
  rewrite (output_from_app _ _ _ _ R21 O21), (output_from_app _ _ _ _ R22 O22).
  rewrite (output_from_app _ _ _ _ R41 O41), (output_from_app _ _ _ _ R42 O42).
  repeat split. intros Q1 Q2.
  destruct (ex3_run s1 H1 Q1) as (? & R31 & O31).
  destruct (ex3_run s2 H2 Q2) as (? & R32 & O32).
  rewrite (output_from_app _ _ _ _ R31 O31), (output_from_app _ _ _ _ R32 O32).
  reflexivity.
Qed.

(** C7, refuted as stated: run alone in a fresh kernel, Example 3 stops at
    its first use of [sqrt] with a [NameError] and prints nothing, whereas
    at its place in the notebook it raises nothing and prints four
    lines. *)
Lemma ex3_alone_name_error :
  raised (cells Ex3 fresh) = Some (NameError "sqrt")
  /\ output_alone Ex3 = []
  /\ raised (cells Ex3 (end_state (before Ex3 fresh))) = None
  /\ output_within Ex3 =
     [ Printed [VStr "x1 = ";
                VFloat (Formulas.std_x1 Inputs.a Inputs.b Inputs.c)];
       Printed [VStr "x2 = ";
                VFloat (Formulas.std_x2 Inputs.a Inputs.b Inputs.c)];
       Printed [VStr "x1 = ";
                VFloat (Formulas.alt_x1 Inputs.a Inputs.b Inputs.c)];
       Printed [VStr "x2 = ";
                VFloat (Formulas.alt_x2 Inputs.a Inputs.b Inputs.c)] ].
Proof. run_each. Qed.

(** The states the examples are started in within the notebook shadow no
    builtin, and [sqrt] is bound from Example 2 on. *)
Lemma before_unshadowed (e : example) :
  unshadowed (end_state (before e fresh)).
Proof. destruct e; repeat split; run. Qed.

Lemma sqrt_bound_before_ex3 :
  globals (end_state (before Ex3 fresh)) !! "sqrt" = Some (VBuiltin BMathSqrt)
  /\ globals (end_state (from_math_import_sqrt fresh)) !! "sqrt"
     = Some (VBuiltin BMathSqrt)
  /\ globals (end_state (cells Ex2 fresh)) !! "sqrt"
     = Some (VBuiltin BMathSqrt).
Proof. repeat split; run. Qed.

(** C7, amended: Examples 1, 2 and 4 print the same run alone as within
    the notebook. Example 3 depends on the [from math import sqrt] of
    Example 2: once that import has run, in a kernel that ran nothing
    else, it prints what it prints within the notebook, and so it does
    after Example 2 alone. *)
Theorem examples_independent_up_to_import :
  output_alone Ex1 = output_within Ex1
  /\ output_alone Ex2 = output_within Ex2
  /\ output_alone Ex4 = output_within Ex4
  /\ output_from (cells Ex3) (end_state (from_math_import_sqrt fresh))
     = output_within Ex3
  /\ output_from (cells Ex3) (end_state (cells Ex2 fresh))
     = output_within Ex3
  /\ stdout final
     = output_within Ex1 ++ output_within Ex2
       ++ output_within Ex3 ++ output_within Ex4.
Proof.
  destruct sqrt_bound_before_ex3 as (Q3 & Qi & Q2).
  split; [|split; [|split; [|split; [|split]]]].
  - destruct (ex1_run _ (before_unshadowed Ex1)) as (s' & Hrun & Hout).
    symmetry. exact (output_from_app _ _ _ _ Hrun Hout).
  - destruct (ex2_run _ (before_unshadowed Ex2)) as (s' & Hrun & Hout).
    symmetry. exact (output_from_app _ _ _ _ Hrun Hout).
  - destruct (ex4_run _ (before_unshadowed Ex4)) as (s' & Hrun & Hout).
    symmetry. exact (output_from_app _ _ _ _ Hrun Hout).
  - assert (unshadowed (end_state (from_math_import_sqrt fresh))) as Hu
      by (repeat split).
    destruct (ex3_run _ Hu Qi) as (s' & Hrun & Hout).
    exact (output_from_app _ _ _ _ Hrun Hout).
  - assert (unshadowed (end_state (cells Ex2 fresh))) as Hu
      by (repeat split; run).
    destruct (ex3_run _ Hu Q2) as (s' & Hrun & Hout).
    exact (output_from_app _ _ _ _ Hrun Hout).
  - run.
Qed.

End Notebook.
